(** * ActionRegistry: key bindings to action lists

    A shallow embedding of [src/ActionRegistry.js].  The registry owns one
    plain object, [this.bindings], used as a map from key identifiers to
    JavaScript values.  Arrays are mutable objects handled by reference, so
    the embedding keeps a store of arrays next to the table: a table entry
    holding an array holds its location, and [push] updates the store.

    The table of a [state] is a plain object: [bindings] are its own
    entries and its prototype is [Object.prototype].  The class documents
    that keys "must match the available keys in the DOM Key Values
    documentation"; none of those names a property that a plain object
    inherits.  [getProp] and [setProp] read and write own entries, which is
    what [this.bindings[keyValue]] does for such keys.  The hypotheses
    [inherited k = false] and, where only the assignment matters,
    [k ≠ "__proto__"] in the theorems below name this scope.  A table that
    is [null] is handled one level up, in [registry]. *)

From stdpp Require Import gmap strings list fin_maps pretty.

Local Open Scope string_scope.
Local Open Scope list_scope.

(** ** JavaScript values *)

Definition loc := positive.

(** The values a table entry or an array element can hold.  [VNum] stands
    for an integer-valued number of magnitude below 10^21, which JavaScript
    prints in decimal digits; [VArr] is a reference to an array. *)
Inductive value :=
  | VUndefined
  | VNull
  | VBool (b : bool)
  | VNum (n : Z)
  | VStr (s : string)
  | VArr (l : loc).

#[global] Instance value_eq_dec : EqDecision value.
Proof. solve_decision. Defined.

(** [ToBoolean]: what [!v], [v && _] and [v || _] test. *)
Definition truthy (v : value) : bool :=
  match v with
  | VUndefined | VNull => false
  | VBool b => b
  | VNum n => negb (n =? 0)%Z
  | VStr s => negb (String.eqb s "")
  | VArr _ => true
  end.

(** [Array.isArray(v)]. *)
Definition isArray (v : value) : bool :=
  match v with
  | VArr _ => true
  | _ => false
  end.

(** [`${v}`] for a primitive [v].  The only template literal of the class
    sits in a branch guarded by [!Array.isArray(binding)], so an array is
    never converted. *)
Definition to_display (v : value) : string :=
  match v with
  | VUndefined => "undefined"
  | VNull => "null"
  | VBool true => "true"
  | VBool false => "false"
  | VNum n => pretty n
  | VStr s => s
  | VArr _ => ""
  end.

(** ** Program state *)

(** [bindings] is the object stored in [this.bindings]; [arrays] is the
    store of array objects, shared with the caller of the registry. *)
Record state := State {
  bindings : gmap string value;
  arrays : gmap loc (list value);
}.

(** The elements of the array at [l]. *)
Definition contents (h : gmap loc (list value)) (l : loc) : list value :=
  default [] (h !! l).

(** What a consumer sees through a value: a primitive itself, an array as
    the sequence of its elements. *)
Inductive observed :=
  | OPrim (v : value)
  | OList (xs : list value).

Definition observe (s : state) (v : value) : observed :=
  match v with
  | VArr l => OList (contents (arrays s) l)
  | _ => OPrim v
  end.

(** References are never dangling. *)
Definition allocated (h : gmap loc (list value)) (v : value) : bool :=
  match v with
  | VArr l => bool_decide (is_Some (h !! l))
  | _ => true
  end.

Definition wf_state (s : state) : Prop :=
  map_Forall (λ _ v, allocated (arrays s) v = true) (bindings s).

#[global] Instance wf_state_dec s : Decision (wf_state s).
Proof. unfold wf_state. apply _. Defined.

(** ** Computations that read and write the state, or throw *)

Inductive exn :=
  | Error (msg : string)
  | TypeError (msg : string).

Inductive outcome (A : Type) :=
  | Ok (a : A) (s : state)
  | Throw (e : exn) (s : state).
Arguments Ok {A} a s.
Arguments Throw {A} e s.

Definition M (A : Type) : Type := state → outcome A.

Definition ret {A} (a : A) : M A := λ s, Ok a s.

Definition bind {A B} (m : M A) (k : A → M B) : M B :=
  λ s, match m s with
       | Ok a s' => k a s'
       | Throw e s' => Throw e s'
       end.

Definition throw {A} (e : exn) : M A := λ s, Throw e s.

Declare Scope js_scope.
Delimit Scope js_scope with js.
Notation "'let*' x ':=' m 'in' k" := (bind m (λ x, k))
  (at level 10, x name, m at level 100, k at level 200) : js_scope.
Notation "m ';;;' k" := (bind m (λ _, k))
  (at level 100, k at level 200, right associativity) : js_scope.
Local Open Scope js_scope.

(** The state in which a computation ends, normally or not. *)
Definition final {A} (o : outcome A) : state :=
  match o with
  | Ok _ s => s
  | Throw _ s => s
  end.

(** The returned value, if any. *)
Definition returned {A} (o : outcome A) : option A :=
  match o with
  | Ok a _ => Some a
  | Throw _ _ => None
  end.

(** The string-named properties of [Object.prototype], which every plain
    object inherits. *)
Definition inherited_names : list string :=
  [ "constructor"; "hasOwnProperty"; "isPrototypeOf"; "propertyIsEnumerable";
    "toLocaleString"; "toString"; "valueOf"; "__proto__";
    "__defineGetter__"; "__defineSetter__";
    "__lookupGetter__"; "__lookupSetter__" ].

Definition inherited (k : string) : bool := bool_decide (k ∈ inherited_names).

(** What evaluating [this.bindings[k]] finds: an entry of the table itself,
    else a property of the prototype, else nothing. *)
Inductive property :=
  | OwnEntry (v : value)
  | FromPrototype (name : string)
  | Missing.

Definition lookup_property (s : state) (k : string) : property :=
  match bindings s !! k with
  | Some v => OwnEntry v
  | None => if inherited k then FromPrototype k else Missing
  end.

(** [this.bindings[k]] where [k] has an entry of its own or names nothing
    inherited: the entry, and [undefined] when there is none. *)
Definition getProp (k : string) : M value :=
  λ s, Ok (default VUndefined (bindings s !! k)) s.

(** [this.bindings[k] = v] for [k] other than ["__proto__"]: the table gets
    or updates an entry of its own, also where [k] names something
    inherited.  (Assigning to ["__proto__"] runs the inherited setter.) *)
Definition setProp (k : string) (v : value) : M unit :=
  λ s, Ok () (State (<[k := v]> (bindings s)) (arrays s)).

(** An array literal: a new array object, distinct from every other. *)
Definition newArray (xs : list value) : M value :=
  λ s, let l := fresh (dom (arrays s)) in
       Ok (VArr l) (State (bindings s) (<[l := xs]> (arrays s))).

(** [...v] for an array [v]: its elements at the time of the call. *)
Definition spread (v : value) : M (list value) :=
  λ s, match v with
       | VArr l => Ok (contents (arrays s) l) s
       | _ => Throw (TypeError "Spread syntax requires ...iterable") s
       end.

(** [v.push(x1, ..., xn)]: appends in place to the array [v] refers to. *)
Definition push (v : value) (xs : list value) : M unit :=
  λ s, match v with
       | VArr l =>
           Ok () (State (bindings s)
                        (<[l := contents (arrays s) l ++ xs]> (arrays s)))
       | _ => Throw (TypeError "binding.push is not a function") s
       end.

(** ** The class *)

(** [constructor (bindings = {})]: the default applies when the argument
    is omitted.  The table passed in is used as it is. *)
Definition constructor (bindings : option (gmap string value))
    (h : gmap loc (list value)) : state :=
  State (default ∅ bindings) h.

Definition addBindKeyTo (keyValue : string) (actionOrActionArray : value)
    : M unit :=
  let* binding := getProp keyValue in
  let* binding :=
    (if negb (truthy binding) && negb (isArray binding) then
       newArray []
     else if truthy binding && negb (isArray binding) then
       throw (Error ("Binding " +:+ to_display binding +:+
                     " is not an array. All bindings must be an array of action!"))
     else ret binding) in
  if isArray actionOrActionArray then
    let* items := spread actionOrActionArray in
    push binding items
  else push binding [actionOrActionArray].

Definition setBindingTo (keyValue : string) (actionArray : value) : M unit :=
  setProp keyValue actionArray.

(** [this.bindings[keyValue] || null]. *)
Definition getActionsForKey (keyValue : string) : M value :=
  let* v := getProp keyValue in
  ret (if truthy v then v else VNull).

(** [!!this.getActionsForKey(keyValue)]. *)
Definition isBound (keyValue : string) : M bool :=
  let* v := getActionsForKey keyValue in
  ret (negb (negb (truthy v))).

(** Two keys are aliased when they are bound to the same array object. *)
Definition aliased (s : state) (k k' : string) : bool :=
  match bindings s !! k, bindings s !! k' with
  | Some (VArr l), Some (VArr l') => bool_decide (l = l')
  | _, _ => false
  end.

(** What [getActionsForKey] shows to a consumer that reads the result. *)
Definition seenActionsForKey (k : string) (s : state) : option observed :=
  match getActionsForKey k s with
  | Ok v s' => Some (observe s' v)
  | Throw _ _ => None
  end.

(** The arguments [addBindKeyTo] hands to [push]. *)
Definition pushed (h : gmap loc (list value)) (a : value) : list value :=
  match a with
  | VArr la => contents h la
  | _ => [a]
  end.

(** The shape the class documents for its table ("All bindings must be an
    array of action"): every entry is an array. *)
Definition well_shaped (s : state) : Prop :=
  map_Forall (λ _ v, isArray v = true) (bindings s).

#[global] Instance well_shaped_dec s : Decision (well_shaped s).
Proof. unfold well_shaped. apply _. Defined.

(** ** A registry as its caller builds it *)

(** The argument of [new ActionRegistry(...)]: left out, [null], or a table. *)
Inductive argument :=
  | Omitted
  | PassedNull
  | PassedTable (b : gmap string value).

(** What [this.bindings] holds.  The default [{}] replaces an argument that
    is left out; [null] is stored as it is. *)
Inductive held :=
  | HeldNull
  | HeldTable (b : gmap string value).

Record registry := Registry {
  this_bindings : held;
  heap : gmap loc (list value);
}.

Definition of_state (s : state) : registry :=
  Registry (HeldTable (bindings s)) (arrays s).

Definition new_ActionRegistry (arg : argument) (h : gmap loc (list value))
    : registry :=
  match arg with
  | Omitted => of_state (constructor None h)
  | PassedNull => Registry HeldNull h
  | PassedTable b => of_state (constructor (Some b) h)
  end.

Inductive result (A : Type) :=
  | Returns (a : A) (r : registry)
  | Raises (e : exn) (r : registry).
Arguments Returns {A} a r.
Arguments Raises {A} e r.

(** A method called on a registry.  Every method starts by evaluating
    [this.bindings[keyValue]] (lines 47, 73 and 83, and line 94 through
    [getActionsForKey]), which throws a [TypeError] when [this.bindings] is
    [null], before anything is changed. *)
Definition call {A} (method : M A) (r : registry) : result A :=
  match this_bindings r with
  | HeldNull => Raises (TypeError "this.bindings is null") r
  | HeldTable b =>
      match method (State b (heap r)) with
      | Ok a s => Returns a (of_state s)
      | Throw e s => Raises e (of_state s)
      end
  end.

Definition returns {A} (x : result A) : Prop := ∃ a r, x = Returns a r.

Definition raises_TypeError {A} (x : result A) : Prop :=
  ∃ msg r, x = Raises (TypeError msg) r.

(** ** Sample states *)

(** [new ActionRegistry(null)]. *)
Definition null_registry : registry := new_ActionRegistry PassedNull ∅.

Definition empty_registry : state := constructor None ∅.

(** [{"A": "Jump"}]: an entry that is not an array. *)
Definition scalar_registry : state :=
  constructor (Some {[ "A" := VStr "Jump" ]}) ∅.

(** [{"A": ""}]: an entry that is present, not an array, and falsy. *)
Definition blank_registry : state :=
  constructor (Some {[ "A" := VStr "" ]}) ∅.

(** [const arr = ["Jump"]; r.setBindingTo("A", arr); r.setBindingTo("B", arr)] *)
Definition share_one_array : M unit :=
  let* arr := newArray [VStr "Jump"] in
  setBindingTo "A" arr ;;;
  setBindingTo "B" arr.

Definition shared_registry : state := final (share_one_array empty_registry).

(** [{"A": ["Jump"], "B": ["Crouch"]}] with two distinct arrays. *)
Definition separate_registry : state :=
  constructor (Some {[ "A" := VArr 1%positive; "B" := VArr 2%positive ]})
              {[ 1%positive := [VStr "Jump"]; 2%positive := [VStr "Crouch"] ]}.

(** [separate_registry] beside an empty array that no key holds. *)
Definition spare_registry : state :=
  State (bindings separate_registry)
        (<[3%positive := []]> (arrays separate_registry)).

(** ** Basic facts *)

Lemma truthy_not_array v : truthy v = false → isArray v = false.
Proof. by destruct v. Qed.

Lemma contents_insert_eq (h : gmap loc (list value)) l xs :
  contents (<[l := xs]> h) l = xs.
Proof. unfold contents. by rewrite lookup_insert_eq. Qed.

Lemma contents_insert_ne (h : gmap loc (list value)) l l' xs :
  l ≠ l' → contents (<[l := xs]> h) l' = contents h l'.
Proof. intros. unfold contents. by rewrite lookup_insert_ne. Qed.

Lemma contents_fresh (h : gmap loc (list value)) :
  contents h (fresh (dom h)) = [].
Proof.
  unfold contents.
  by rewrite (not_elem_of_dom_1 h (fresh (dom h)) (is_fresh (dom h))).
Qed.

Lemma pushed_after_alloc (h : gmap loc (list value)) a :
  pushed (<[fresh (dom h) := []]> h) a = pushed h a.
Proof.
  destruct a as [| | | | |la]; try reflexivity. simpl.
  destruct (decide (fresh (dom h) = la)) as [<-|Hne].
  - by rewrite contents_insert_eq, contents_fresh.
  - by apply contents_insert_ne.
Qed.

(** ** [addBindKeyTo], case by case *)

(** No truthy entry under the key: the elements go to a new array, which
    is stored nowhere. *)
Lemma addBindKeyTo_falsy s k a :
  truthy (default VUndefined (bindings s !! k)) = false →
  addBindKeyTo k a s =
    Ok () (State (bindings s)
                 (<[fresh (dom (arrays s)) := pushed (arrays s) a]> (arrays s))).
Proof.
  intros Hf. unfold addBindKeyTo, bind, getProp.
  rewrite Hf, (truthy_not_array _ Hf). cbn [negb andb newArray arrays bindings].
  assert (Hp : ∀ h : gmap loc (list value),
    <[fresh (dom h) := contents (<[fresh (dom h) := []]> h) (fresh (dom h))
                        ++ pushed (<[fresh (dom h) := []]> h) a]>
      (<[fresh (dom h) := []]> h)
    = <[fresh (dom h) := pushed h a]> h).
  { intros h.
    by rewrite contents_insert_eq, pushed_after_alloc, insert_insert_eq. }
  destruct a; cbn [isArray spread push arrays bindings]; f_equal; f_equal;
    apply (Hp (arrays s)).
Qed.

(** An array under the key: the elements are appended to it in place. *)
Lemma addBindKeyTo_array s k l a :
  bindings s !! k = Some (VArr l) →
  addBindKeyTo k a s =
    Ok () (State (bindings s)
                 (<[l := contents (arrays s) l ++ pushed (arrays s) a]> (arrays s))).
Proof.
  intros Hk. unfold addBindKeyTo, bind, getProp. rewrite Hk.
  cbn [from_option id truthy isArray negb andb ret].
  by destruct a.
Qed.

(** A truthy entry that is not an array: the error, and the state as it was. *)
Lemma addBindKeyTo_invalid s k v a :
  bindings s !! k = Some v → truthy v = true → isArray v = false →
  addBindKeyTo k a s =
    Throw (Error ("Binding " +:+ to_display v +:+
                  " is not an array. All bindings must be an array of action!")) s.
Proof.
  intros Hk Ht Ha. unfold addBindKeyTo, bind, getProp. rewrite Hk.
  cbn [from_option id]. rewrite Ht, Ha. reflexivity.
Qed.

(** The three cases cover every state. *)
Lemma addBindKeyTo_cases s k :
  truthy (default VUndefined (bindings s !! k)) = false
  ∨ (∃ l, bindings s !! k = Some (VArr l))
  ∨ (∃ v, bindings s !! k = Some v ∧ truthy v = true ∧ isArray v = false).
Proof.
  destruct (bindings s !! k) as [v|] eqn:Hk; [|by left].
  destruct (truthy v) eqn:Ht; [|by left].
  right. destruct (isArray v) eqn:Ha.
  - left. destruct v; try discriminate. by eexists.
  - right. by exists v.
Qed.

(** Splits a goal about [addBindKeyTo k _ s] into the three cases and
    replaces the call by its outcome in each. *)
Ltac addBindKeyTo_by_cases s k :=
  let Hf := fresh "Hfalsy" in
  let l := fresh "l" in
  let Hl := fresh "Harray" in
  let v := fresh "v" in
  let Hv := fresh "Hentry" in
  let Ht := fresh "Htruthy" in
  let Ha := fresh "Hscalar" in
  destruct (addBindKeyTo_cases s k) as [Hf|[[l Hl]|(v & Hv & Ht & Ha)]];
  [ rewrite (addBindKeyTo_falsy s k) by exact Hf
  | rewrite (addBindKeyTo_array s k l) by exact Hl
  | rewrite (addBindKeyTo_invalid s k v) by assumption ];
  cbn [final arrays bindings].

(** [addBindKeyTo] never writes to the table. *)
Lemma addBindKeyTo_bindings s k a :
  bindings (final (addBindKeyTo k a s)) = bindings s.
Proof. by addBindKeyTo_by_cases s k. Qed.

(** It changes no existing array other than the one bound to the key. *)
Lemma addBindKeyTo_arrays s k a l' :
  is_Some (arrays s !! l') →
  bindings s !! k ≠ Some (VArr l') →
  arrays (final (addBindKeyTo k a s)) !! l' = arrays s !! l'.
Proof.
  intros Hal Hne. addBindKeyTo_by_cases s k.
  - apply lookup_insert_ne. intros <-.
    apply elem_of_dom in Hal. by apply (is_fresh (dom (arrays s))).
  - apply lookup_insert_ne. congruence.
  - reflexivity.
Qed.

(** ** Queries *)

Lemma getActionsForKey_eq s k :
  getActionsForKey k s =
    Ok (let v := default VUndefined (bindings s !! k) in
        if truthy v then v else VNull) s.
Proof. reflexivity. Qed.

Lemma isBound_eq s k :
  isBound k s = Ok (truthy (default VUndefined (bindings s !! k))) s.
Proof.
  unfold isBound, bind. rewrite getActionsForKey_eq. cbn [ret].
  generalize (default VUndefined (bindings s !! k)). intros v. cbv zeta.
  destruct (truthy v) eqn:Ht; cbn [truthy negb]; by rewrite ?Ht.
Qed.

(** For a key that names nothing inherited, the read never reaches the
    prototype, and [getProp] returns what it finds. *)
Lemma getProp_reads_property s k :
  inherited k = false →
  (∀ name, lookup_property s k ≠ FromPrototype name)
  ∧ getProp k s = Ok (match lookup_property s k with
                      | OwnEntry v => v
                      | _ => VUndefined
                      end) s.
Proof.
  intros Hk. unfold lookup_property, getProp. rewrite Hk.
  by destruct (bindings s !! k).
Qed.

Lemma setBindingTo_eq s k v :
  setBindingTo k v s = Ok () (State (<[k := v]> (bindings s)) (arrays s)).
Proof. reflexivity. Qed.

(** ** No dangling reference *)

Lemma wf_state_lookup s k l :
  wf_state s → bindings s !! k = Some (VArr l) → is_Some (arrays s !! l).
Proof.
  intros Hwf Hk. specialize (Hwf k (VArr l) Hk). cbn in Hwf.
  by apply bool_decide_eq_true in Hwf.
Qed.

Lemma allocated_mono (h h' : gmap loc (list value)) v :
  dom h ⊆ dom h' → allocated h v = true → allocated h' v = true.
Proof.
  intros Hsub. destruct v; try done. cbn.
  rewrite !bool_decide_eq_true, <- !elem_of_dom. apply Hsub.
Qed.

Lemma wf_state_setBindingTo s k v :
  wf_state s → allocated (arrays s) v = true →
  wf_state (final (setBindingTo k v s)).
Proof.
  intros Hwf Hv. rewrite setBindingTo_eq. unfold wf_state. cbn [final bindings arrays].
  by apply map_Forall_insert_2.
Qed.

Lemma wf_state_addBindKeyTo s k a :
  wf_state s → wf_state (final (addBindKeyTo k a s)).
Proof.
  intros Hwf. unfold wf_state. rewrite addBindKeyTo_bindings.
  intros k' v Hk'. apply (allocated_mono (arrays s)); [|by apply (Hwf k' v Hk')].
  addBindKeyTo_by_cases s k.
  - rewrite dom_insert_L. set_solver.
  - rewrite dom_insert_L. set_solver.
  - reflexivity.
Qed.

(** ** Properties of the registry *)

(** C6: a key identifier that has no entry in the table reads as [null]
    through [getActionsForKey] and as [false] through [isBound].  A key
    identifier names no property that the table inherits. *)
Theorem unbound_key_null_and_not_bound s k :
  inherited k = false →
  bindings s !! k = None →
  getActionsForKey k s = Ok VNull s ∧ isBound k s = Ok false s.
Proof.
  intros _ Hk. rewrite getActionsForKey_eq, isBound_eq, Hk. by split.
Qed.

Lemma unbound_key_null_and_not_bound_witness :
  inherited "A" = false ∧
  bindings empty_registry !! "A" = None ∧
  getActionsForKey "A" empty_registry = Ok VNull empty_registry ∧
  isBound "A" empty_registry = Ok false empty_registry.
Proof.
  split; [reflexivity|]. split; [reflexivity|].
  apply (unbound_key_null_and_not_bound empty_registry "A"); reflexivity.
Defined.

(** C7: a registry built from [{"A": ["Jump"]}] has "A" bound and "B" not
    bound; a registry built without an argument has an empty table. *)
Theorem constructor_initial_bindings (h : gmap loc (list value)) (l : loc) :
  let s := constructor (Some {[ "A" := VArr l ]}) (<[l := [VStr "Jump"]]> h) in
  isBound "A" s = Ok true s
  ∧ isBound "B" s = Ok false s
  ∧ bindings (constructor None h) = ∅.
Proof.
  cbv zeta. rewrite !isBound_eq. cbn [constructor bindings from_option id].
  rewrite lookup_singleton_eq, lookup_singleton_ne by done. by repeat split.
Qed.

(** On a table that is an object, the three operations other than
    [addBindKeyTo] return from every state and for every argument. *)
Lemma operations_return_on_tables s k v :
  (∃ s', setBindingTo k v s = Ok () s')
  ∧ (∃ r, getActionsForKey k s = Ok r s)
  ∧ (∃ b, isBound k s = Ok b s).
Proof.
  rewrite setBindingTo_eq, getActionsForKey_eq, isBound_eq.
  repeat split; eexists; reflexivity.
Qed.

(** After [new ActionRegistry(null)] the three operations throw: the
    default table replaces an argument left out, not [null]. *)
Lemma null_table_raises :
  raises_TypeError (call (setBindingTo "A" (VStr "Jump")) null_registry)
  ∧ raises_TypeError (call (getActionsForKey "A") null_registry)
  ∧ raises_TypeError (call (isBound "A") null_registry)
  ∧ ¬ returns (call (getActionsForKey "A") null_registry).
Proof.
  repeat split; try (by eexists _, _).
  intros (a & r & [=]).
Qed.

(** C8 (amended): on a registry whose table is an object, [setBindingTo],
    [getActionsForKey] and [isBound] return normally for every key and
    every value; on a registry whose table is [null], each of the three
    throws a [TypeError]. *)
Theorem other_operations_return_on_objects (r : registry) (k : string) (v : value) :
  match this_bindings r with
  | HeldTable _ =>
      returns (call (setBindingTo k v) r)
      ∧ returns (call (getActionsForKey k) r)
      ∧ returns (call (isBound k) r)
  | HeldNull =>
      raises_TypeError (call (setBindingTo k v) r)
      ∧ raises_TypeError (call (getActionsForKey k) r)
      ∧ raises_TypeError (call (isBound k) r)
  end.
Proof.
  destruct r as [[|b] h]; cbn [this_bindings].
  - repeat split; by eexists _, _.
  - destruct (operations_return_on_tables (State b h) k v)
      as ((s' & Hset) & (x & Hget) & (y & Hbound)).
    unfold returns, call. cbn [this_bindings heap].
    rewrite Hset, Hget, Hbound. repeat split; by eexists _, _.
Qed.

(** C3: after [setBindingTo(k, L)] with an array [L], [getActionsForKey(k)]
    returns [L] itself, holding the elements it held before the call,
    whatever [k] was bound to. *)
Theorem setBindingTo_then_get s k l :
  ∃ s', setBindingTo k (VArr l) s = Ok () s'
        ∧ getActionsForKey k s' = Ok (VArr l) s'
        ∧ observe s' (VArr l) = observe s (VArr l).
Proof.
  eexists. split; [apply setBindingTo_eq|].
  rewrite getActionsForKey_eq. cbn [bindings].
  by rewrite lookup_insert_eq.
Qed.

(** C10: a key set to the empty array is bound, and [getActionsForKey]
    returns that empty array, not [null]. *)
Theorem empty_list_counts_as_bound s k :
  ∃ l s',
    (let* arr := newArray [] in
     setBindingTo k arr ;;;
     let* b := isBound k in
     let* r := getActionsForKey k in
     ret (b, r)) s = Ok (true, VArr l) s'
    ∧ observe s' (VArr l) = OList [].
Proof.
  eexists _, _. unfold bind at 1 2. cbn [newArray].
  rewrite setBindingTo_eq. unfold bind. rewrite isBound_eq, getActionsForKey_eq.
  cbn [bindings arrays ret]. rewrite lookup_insert_eq. cbn [from_option id truthy].
  split; [reflexivity|]. cbn [observe arrays]. by rewrite contents_insert_eq.
Qed.

(** C4: after [setBindingTo(k, L1)] and then [addBindKeyTo(k, "X")],
    [getActionsForKey(k)] returns [L1], which now holds its former elements
    followed by ["X"]. *)
Theorem set_then_add_appends s k l (x : string) :
  ∃ s', (setBindingTo k (VArr l) ;;; addBindKeyTo k (VStr x)) s = Ok () s'
        ∧ getActionsForKey k s' = Ok (VArr l) s'
        ∧ observe s' (VArr l) = OList (contents (arrays s) l ++ [VStr x]).
Proof.
  eexists. unfold bind. rewrite setBindingTo_eq.
  rewrite (addBindKeyTo_array _ _ l) by (cbn [bindings]; apply lookup_insert_eq).
  split; [reflexivity|].
  rewrite getActionsForKey_eq. cbn [bindings arrays observe pushed].
  rewrite lookup_insert_eq, contents_insert_eq. by split.
Qed.

(** ** Appending under a key that has no array yet *)

(** The new array made for a key without a truthy entry is filled and then
    dropped: the table is as before and the key still reads as [null]. *)
Lemma addBindKeyTo_falsy_then_get s k a :
  truthy (default VUndefined (bindings s !! k)) = false →
  ∃ s', addBindKeyTo k a s = Ok () s'
        ∧ bindings s' = bindings s
        ∧ getActionsForKey k s' = Ok VNull s'.
Proof.
  intros Hf. eexists. split; [by apply addBindKeyTo_falsy|].
  split; [reflexivity|].
  rewrite getActionsForKey_eq. cbn [bindings]. cbv zeta. by rewrite Hf.
Qed.

(** C1 (the code departs from the claim): on a registry built without
    bindings, [addBindKeyTo(k, "X")] and [addBindKeyTo(k, ["X","Y"])] return
    normally, yet [getActionsForKey(k)] still answers [null] afterwards,
    where the claim expects [["X"]] and [["X","Y"]]. *)
Theorem addBindKeyTo_unbound_not_stored (h : gmap loc (list value)) (k : string) :
  returned ((addBindKeyTo k (VStr "X") ;;;
             getActionsForKey k) (constructor None h)) = Some VNull
  ∧ returned ((let* xy := newArray [VStr "X"; VStr "Y"] in
               addBindKeyTo k xy ;;;
               getActionsForKey k) (constructor None h)) = Some VNull.
Proof.
  split.
  - unfold bind.
    destruct (addBindKeyTo_falsy_then_get (constructor None h) k (VStr "X"))
      as (s' & -> & _ & ->); [|reflexivity].
    cbn [constructor bindings from_option id]. by rewrite lookup_empty.
  - unfold bind at 1. cbn [newArray].
    unfold bind.
    match goal with
    | |- context [addBindKeyTo k ?a ?s0] =>
        destruct (addBindKeyTo_falsy_then_get s0 k a) as (s' & -> & _ & ->)
    end; [|reflexivity].
    cbn [constructor bindings from_option id]. by rewrite lookup_empty.
Qed.

(** C5 (the code departs from the claim): on a registry built without
    bindings, two calls of [addBindKeyTo(k, "Z")] leave [getActionsForKey(k)]
    at [null], where the claim expects [["Z","Z"]].  Same defect as C1. *)
Theorem addBindKeyTo_twice_not_stored (h : gmap loc (list value)) (k : string) :
  returned ((addBindKeyTo k (VStr "Z") ;;;
             addBindKeyTo k (VStr "Z") ;;;
             getActionsForKey k) (constructor None h)) = Some VNull.
Proof.
  unfold bind.
  destruct (addBindKeyTo_falsy_then_get (constructor None h) k (VStr "Z"))
    as (s1 & -> & Hb1 & _).
  { cbn [constructor bindings from_option id]. by rewrite lookup_empty. }
  destruct (addBindKeyTo_falsy_then_get s1 k (VStr "Z")) as (s2 & -> & _ & ->);
    [|reflexivity].
  rewrite Hb1. cbn [constructor bindings from_option id]. by rewrite lookup_empty.
Qed.

(** ** The invalid-state error *)

(** An entry that is present and not an array, but falsy, raises nothing:
    on [{"A": ""}] the call [addBindKeyTo("A", "Crouch")] returns normally. *)
Lemma addBindKeyTo_blank_entry_accepted :
  bindings blank_registry !! "A" = Some (VStr "")
  ∧ isArray (VStr "") = false
  ∧ (∃ s', addBindKeyTo "A" (VStr "Crouch") blank_registry = Ok () s')
  ∧ (∀ e s', addBindKeyTo "A" (VStr "Crouch") blank_registry ≠ Throw e s').
Proof.
  assert (Hf : truthy (default VUndefined (bindings blank_registry !! "A")) = false).
  { unfold blank_registry. cbn [constructor bindings from_option id].
    by rewrite lookup_singleton_eq. }
  split; [apply lookup_singleton_eq|]. split; [reflexivity|].
  rewrite (addBindKeyTo_falsy _ _ _ Hf). split; [by eexists|]. discriminate.
Qed.

(** C2 (amended): when the entry under [k] is truthy and is not an array,
    [addBindKeyTo(k, a)] throws the error that reports the entry, the state
    is the one before the call, and [getActionsForKey(k)] still returns
    that entry. *)
Theorem addBindKeyTo_invalid_state s k v a :
  bindings s !! k = Some v → truthy v = true → isArray v = false →
  addBindKeyTo k a s =
    Throw (Error ("Binding " +:+ to_display v +:+
                  " is not an array. All bindings must be an array of action!")) s
  ∧ getActionsForKey k s = Ok v s.
Proof.
  intros Hk Ht Ha. split; [by apply addBindKeyTo_invalid|].
  rewrite getActionsForKey_eq, Hk. cbn [from_option id]. cbv zeta. by rewrite Ht.
Qed.

Lemma addBindKeyTo_invalid_state_witness :
  bindings scalar_registry !! "A" = Some (VStr "Jump")
  ∧ addBindKeyTo "A" (VStr "Crouch") scalar_registry =
      Throw (Error "Binding Jump is not an array. All bindings must be an array of action!")
            scalar_registry
  ∧ getActionsForKey "A" scalar_registry = Ok (VStr "Jump") scalar_registry.
Proof.
  split; [apply lookup_singleton_eq|].
  apply (addBindKeyTo_invalid_state scalar_registry "A" (VStr "Jump") (VStr "Crouch"));
    [apply lookup_singleton_eq | reflexivity | reflexivity].
Defined.

(** ** Other keys *)

Lemma seenActionsForKey_eq s k :
  seenActionsForKey k s =
    Some (observe s (let v := default VUndefined (bindings s !! k) in
                     if truthy v then v else VNull)).
Proof. reflexivity. Qed.

(** The registry in which "A" and "B" hold one and the same array is
    reached through the operations of the class alone. *)
Lemma shared_registry_eq :
  shared_registry =
    State {[ "A" := VArr 1%positive; "B" := VArr 1%positive ]}
          {[ 1%positive := [VStr "Jump"] ]}.
Proof.
  reflexivity.
Qed.

(** With one array bound to both "A" and "B", appending under "A" changes
    what [getActionsForKey("B")] shows. *)
Lemma shared_array_seen_under_other_key :
  "A" ≠ "B"
  ∧ wf_state shared_registry
  ∧ seenActionsForKey "B" shared_registry = Some (OList [VStr "Jump"])
  ∧ seenActionsForKey "B" (final (addBindKeyTo "A" (VStr "X") shared_registry))
    = Some (OList [VStr "Jump"; VStr "X"])
  ∧ seenActionsForKey "B" (final (addBindKeyTo "A" (VStr "X") shared_registry))
    ≠ seenActionsForKey "B" shared_registry.
Proof.
  split; [done|]. rewrite shared_registry_eq. split.
  { apply map_Forall_insert_2; [reflexivity|].
    apply map_Forall_insert_2; [reflexivity|]. apply map_Forall_empty. }
  split; [reflexivity|].
  rewrite (addBindKeyTo_array _ _ 1%positive) by reflexivity.
  split; [reflexivity|]. discriminate.
Qed.

(** C9 (amended): for distinct keys [k] and [k'], [k] not being
    ["__proto__"], [setBindingTo(k, L)] and [addBindKeyTo(k, a)], whether it
    returns or throws, leave the entry under [k'] as it was, so
    [getActionsForKey(k')] returns the same value.  What is seen through
    that value is the same as well, unless [k] and [k'] are bound to one
    and the same array object. *)
Theorem other_key_unchanged s k k' :
  k ≠ "__proto__" → k ≠ k' → wf_state s →
  (∀ L, let s' := final (setBindingTo k L s) in
        bindings s' !! k' = bindings s !! k'
        ∧ returned (getActionsForKey k' s') = returned (getActionsForKey k' s)
        ∧ seenActionsForKey k' s' = seenActionsForKey k' s)
  ∧ (∀ a, let s' := final (addBindKeyTo k a s) in
          bindings s' !! k' = bindings s !! k'
          ∧ returned (getActionsForKey k' s') = returned (getActionsForKey k' s)
          ∧ (aliased s k k' = false →
             seenActionsForKey k' s' = seenActionsForKey k' s)).
Proof.
  intros _ Hne Hwf. split.
  - intros L s'. subst s'. rewrite setBindingTo_eq. cbn [final].
    rewrite !seenActionsForKey_eq, !getActionsForKey_eq. cbn [bindings returned].
    rewrite lookup_insert_ne by done. by repeat split.
  - intros a s'. subst s'.
    rewrite !seenActionsForKey_eq, !getActionsForKey_eq. cbn [returned].
    rewrite addBindKeyTo_bindings. split; [reflexivity|]. split; [reflexivity|].
    intros Hal. f_equal. cbv zeta.
    destruct (bindings s !! k') as [v'|] eqn:Hk'; [|reflexivity].
    cbn [from_option id].
    destruct (truthy v'); [|reflexivity].
    destruct v' as [| | | | |l']; try reflexivity.
    cbn [observe]. unfold contents. f_equal. f_equal.
    apply addBindKeyTo_arrays.
    + by apply (wf_state_lookup s k').
    + intros Hk. unfold aliased in Hal. rewrite Hk, Hk' in Hal.
      by rewrite bool_decide_eq_false in Hal.
Qed.

Lemma other_key_unchanged_witness :
  "A" ≠ "__proto__"
  ∧ "A" ≠ "B"
  ∧ wf_state separate_registry
  ∧ aliased separate_registry "A" "B" = false
  ∧ seenActionsForKey "B"
      (final (addBindKeyTo "A" (VStr "X") separate_registry))
    = seenActionsForKey "B" separate_registry.
Proof.
  assert (Hkey : "A" ≠ "__proto__") by done.
  assert (Hne : "A" ≠ "B") by done.
  assert (Hwf : wf_state separate_registry).
  { apply map_Forall_insert_2; [reflexivity|].
    apply map_Forall_insert_2; [reflexivity|]. apply map_Forall_empty. }
  assert (Hal : aliased separate_registry "A" "B" = false) by reflexivity.
  split; [exact Hkey|]. split; [exact Hne|]. split; [exact Hwf|].
  split; [exact Hal|].
  exact (proj2 (proj2 (proj2 (other_key_unchanged separate_registry "A" "B" Hkey Hne Hwf)
                               (VStr "X"))) Hal).
Defined.

(** ** Appending to a list that is already bound *)

(** X1: [addBindKeyTo], when the key holds an array: the call returns normally,
    the key still holds that same array, and the array holds its former
    elements followed by the action, or by the elements of the action
    array in their order. *)
Theorem addBindKeyTo_appends_in_place s k l a :
  bindings s !! k = Some (VArr l) →
  ∃ s', addBindKeyTo k a s = Ok () s'
        ∧ getActionsForKey k s' = Ok (VArr l) s'
        ∧ (isArray a = false →
           observe s' (VArr l) = OList (contents (arrays s) l ++ [a]))
        ∧ (∀ la, a = VArr la →
           observe s' (VArr l)
           = OList (contents (arrays s) l ++ contents (arrays s) la)).
Proof.
  intros Hk. eexists. split; [by apply (addBindKeyTo_array s k l)|].
  rewrite getActionsForKey_eq. cbn [bindings arrays observe].
  rewrite Hk, contents_insert_eq. split; [reflexivity|]. split.
  - intros Ha. by destruct a.
  - by intros la ->.
Qed.

Lemma addBindKeyTo_appends_in_place_witness :
  bindings separate_registry !! "A" = Some (VArr 1%positive)
  ∧ ∃ s', addBindKeyTo "A" (VStr "X") separate_registry = Ok () s'
          ∧ observe s' (VArr 1%positive) = OList [VStr "Jump"; VStr "X"].
Proof.
  assert (Hk : bindings separate_registry !! "A" = Some (VArr 1%positive))
    by reflexivity.
  split; [exact Hk|].
  destruct (addBindKeyTo_appends_in_place separate_registry "A" 1%positive
              (VStr "X") Hk) as (s' & Hrun & _ & Hone & _).
  exists s'. split; [exact Hrun|]. rewrite (Hone eq_refl). reflexivity.
Defined.

(** X2: Two calls in a row on a key that holds an array accumulate in call
    order, and an action added twice is listed twice. *)
Theorem addBindKeyTo_twice_accumulates s k l x y :
  bindings s !! k = Some (VArr l) → isArray x = false → isArray y = false →
  ∃ s', (addBindKeyTo k x ;;; addBindKeyTo k y) s = Ok () s'
        ∧ observe s' (VArr l) = OList (contents (arrays s) l ++ [x; y]).
Proof.
  intros Hk Hx Hy. eexists. unfold bind.
  rewrite (addBindKeyTo_array s k l) by done.
  rewrite (addBindKeyTo_array _ k l) by done.
  split; [reflexivity|]. cbn [observe arrays].
  rewrite !contents_insert_eq, <- app_assoc.
  by destruct x, y.
Qed.

Lemma addBindKeyTo_twice_accumulates_witness :
  ∃ s', (addBindKeyTo "A" (VStr "Z") ;;; addBindKeyTo "A" (VStr "Z"))
          separate_registry = Ok () s'
        ∧ observe s' (VArr 1%positive)
          = OList [VStr "Jump"; VStr "Z"; VStr "Z"].
Proof.
  destruct (addBindKeyTo_twice_accumulates separate_registry "A" 1%positive
              (VStr "Z") (VStr "Z") eq_refl eq_refl eq_refl)
    as (s' & Hrun & Hseen).
  exists s'. split; [exact Hrun|]. rewrite Hseen. reflexivity.
Defined.

(** X3: Passing a key's own list back to [addBindKeyTo] doubles it: the
    elements are read before the push. *)
Theorem addBindKeyTo_own_list_doubles s k l :
  bindings s !! k = Some (VArr l) →
  ∃ s', (let* current := getActionsForKey k in
         addBindKeyTo k current) s = Ok () s'
        ∧ observe s' (VArr l)
          = OList (contents (arrays s) l ++ contents (arrays s) l).
Proof.
  intros Hk. eexists. unfold bind. rewrite getActionsForKey_eq, Hk.
  cbn [from_option id truthy]. cbv zeta.
  rewrite (addBindKeyTo_array s k l) by done.
  split; [reflexivity|]. cbn [observe arrays pushed].
  by rewrite contents_insert_eq.
Qed.

Lemma addBindKeyTo_own_list_doubles_witness :
  ∃ s', (let* current := getActionsForKey "A" in
         addBindKeyTo "A" current) separate_registry = Ok () s'
        ∧ observe s' (VArr 1%positive) = OList [VStr "Jump"; VStr "Jump"].
Proof.
  destruct (addBindKeyTo_own_list_doubles separate_registry "A" 1%positive
              eq_refl) as (s' & Hrun & Hseen).
  exists s'. split; [exact Hrun|]. rewrite Hseen. reflexivity.
Defined.

(** X4: Appending an empty action array to a key that holds an array changes
    what no key shows. *)
Theorem addBindKeyTo_empty_sequence s k l la :
  bindings s !! k = Some (VArr l) → arrays s !! la = Some [] →
  ∃ s', addBindKeyTo k (VArr la) s = Ok () s'
        ∧ ∀ k', seenActionsForKey k' s' = seenActionsForKey k' s.
Proof.
  intros Hk Hla. eexists. split; [by apply (addBindKeyTo_array s k l)|].
  intros k'. unfold seenActionsForKey. rewrite !getActionsForKey_eq.
  cbn [bindings pushed]. cbv zeta. f_equal.
  destruct (default VUndefined (bindings s !! k')) as [| |b|n|str|l'];
    try by destruct (truthy _).
  cbn [truthy observe arrays]. f_equal.
  replace (contents (arrays s) la) with (@nil value)
    by (unfold contents; by rewrite Hla).
  rewrite app_nil_r.
  destruct (decide (l = l')) as [<-|Hne].
  - apply contents_insert_eq.
  - by apply contents_insert_ne.
Qed.

Lemma addBindKeyTo_empty_sequence_witness :
  arrays spare_registry !! 3%positive = Some []
  ∧ ∃ s', addBindKeyTo "A" (VArr 3%positive) spare_registry = Ok () s'
          ∧ seenActionsForKey "A" s' = Some (OList [VStr "Jump"]).
Proof.
  assert (Hla : arrays spare_registry !! 3%positive = Some []) by reflexivity.
  split; [exact Hla|].
  destruct (addBindKeyTo_empty_sequence spare_registry "A" 1%positive
              3%positive eq_refl Hla) as (s' & Hrun & Hseen).
  exists s'. split; [exact Hrun|]. rewrite (Hseen "A"). reflexivity.
Defined.

(** X5: One array bound to two keys: an action appended under either key is
    seen at the end of the list under the other. *)
Theorem addBindKeyTo_shared_array s k k' l x :
  bindings s !! k = Some (VArr l) → bindings s !! k' = Some (VArr l) →
  isArray x = false →
  seenActionsForKey k' (final (addBindKeyTo k x s))
  = Some (OList (contents (arrays s) l ++ [x])).
Proof.
  intros Hk Hk' Hx. rewrite (addBindKeyTo_array s k l) by done.
  rewrite seenActionsForKey_eq. cbn [final bindings]. rewrite Hk'.
  cbn [from_option id truthy observe arrays]. cbv zeta.
  rewrite contents_insert_eq. by destruct x.
Qed.

Lemma addBindKeyTo_shared_array_witness :
  seenActionsForKey "B" (final (addBindKeyTo "A" (VStr "X") shared_registry))
  = Some (OList [VStr "Jump"; VStr "X"]).
Proof.
  rewrite (addBindKeyTo_shared_array shared_registry "A" "B" 1%positive
             (VStr "X") eq_refl eq_refl eq_refl).
  reflexivity.
Defined.

(** X6: The action array handed to [addBindKeyTo] is only read: unless it is
    the very array bound to the key, it holds the same elements after the
    call. *)
Theorem addBindKeyTo_argument_untouched s k la :
  is_Some (arrays s !! la) → bindings s !! k ≠ Some (VArr la) →
  contents (arrays (final (addBindKeyTo k (VArr la) s))) la
  = contents (arrays s) la.
Proof.
  intros Hla Hne. unfold contents. by rewrite addBindKeyTo_arrays.
Qed.

Lemma addBindKeyTo_argument_untouched_witness :
  contents (arrays (final (addBindKeyTo "A" (VArr 2%positive) separate_registry)))
           2%positive
  = [VStr "Crouch"].
Proof.
  rewrite (addBindKeyTo_argument_untouched separate_registry "A" 2%positive).
  - reflexivity.
  - by eexists.
  - discriminate.
Defined.

(** ** What [addBindKeyTo] never does *)

(** X7: [addBindKeyTo] adds, removes and replaces no entry of the table: after
    the call, however it ends, every key, its own included, is bound exactly
    when it was before and [getActionsForKey] returns the same value. *)
Theorem addBindKeyTo_keeps_every_entry s k a k' :
  let s' := final (addBindKeyTo k a s) in
  bindings s' = bindings s
  ∧ returned (getActionsForKey k' s') = returned (getActionsForKey k' s)
  ∧ returned (isBound k' s') = returned (isBound k' s).
Proof.
  intros s'. subst s'.
  rewrite !getActionsForKey_eq, !isBound_eq, addBindKeyTo_bindings.
  by repeat split.
Qed.

(** X8: for a key that names nothing inherited, [addBindKeyTo] throws
    exactly when the entry under the key is truthy and is not an array;
    neither [push] nor the spread ever fails with a [TypeError]. *)
Theorem addBindKeyTo_throws_exactly s k a :
  inherited k = false →
  ((∃ e s', addBindKeyTo k a s = Throw e s')
   ↔ (∃ v, bindings s !! k = Some v ∧ truthy v = true ∧ isArray v = false))
  ∧ (∀ msg s', addBindKeyTo k a s ≠ Throw (TypeError msg) s').
Proof.
  intros _. addBindKeyTo_by_cases s k.
  - split; [|discriminate]. split.
    + intros (e & s' & [=]).
    + intros (v & Hv & Ht & _). rewrite Hv in Hfalsy. cbn in Hfalsy. congruence.
  - split; [|discriminate]. split.
    + intros (e & s' & [=]).
    + intros (v & Hv & _ & Ha). rewrite Harray in Hv. by injection Hv as <-.
  - split; [|discriminate]. split.
    + intros _. by exists v.
    + intros _. by eexists _, _.
Qed.

Lemma addBindKeyTo_throws_exactly_witness :
  inherited "A" = false
  ∧ (∃ e s', addBindKeyTo "A" (VStr "Crouch") scalar_registry = Throw e s')
  ∧ ¬ (∃ e s', addBindKeyTo "A" (VStr "Crouch") blank_registry = Throw e s').
Proof.
  assert (Hkey : inherited "A" = false) by reflexivity.
  split; [exact Hkey|]. split.
  - apply (addBindKeyTo_throws_exactly scalar_registry "A" (VStr "Crouch") Hkey).
    exists (VStr "Jump"). by repeat split.
  - intros Hthrow.
    apply (addBindKeyTo_throws_exactly blank_registry "A" (VStr "Crouch") Hkey)
      in Hthrow.
    destruct Hthrow as (v & Hv & Ht & _).
    assert (Hblank : bindings blank_registry !! "A" = Some (VStr ""))
      by reflexivity.
    rewrite Hblank in Hv. injection Hv as <-. discriminate Ht.
Defined.

(** X9: Without a truthy entry under a key that names nothing inherited,
    [addBindKeyTo] returns normally and changes what no key shows, its own
    included: the list it fills is stored nowhere. *)
Theorem addBindKeyTo_without_entry_changes_nothing s k a :
  inherited k = false →
  wf_state s → truthy (default VUndefined (bindings s !! k)) = false →
  ∃ s', addBindKeyTo k a s = Ok () s'
        ∧ bindings s' = bindings s
        ∧ ∀ k', seenActionsForKey k' s' = seenActionsForKey k' s.
Proof.
  intros _ Hwf Hf. eexists. split; [by apply addBindKeyTo_falsy|].
  split; [reflexivity|]. intros k'.
  rewrite !seenActionsForKey_eq. cbn [bindings]. cbv zeta. f_equal.
  destruct (bindings s !! k') as [v'|] eqn:Hk'; [|reflexivity].
  cbn [from_option id]. destruct (truthy v'); [|reflexivity].
  destruct v' as [| |b|n|str|l']; try reflexivity.
  cbn [observe arrays]. f_equal. apply contents_insert_ne. intros Heq.
  destruct (wf_state_lookup s k' l' Hwf Hk') as [xs Hxs].
  apply (is_fresh (dom (arrays s))). rewrite Heq. apply elem_of_dom. by eexists.
Qed.

Lemma addBindKeyTo_without_entry_changes_nothing_witness :
  inherited "C" = false
  ∧ wf_state separate_registry
  ∧ ∃ s', addBindKeyTo "C" (VStr "X") separate_registry = Ok () s'
          ∧ seenActionsForKey "C" s' = Some (OPrim VNull)
          ∧ seenActionsForKey "A" s' = Some (OList [VStr "Jump"]).
Proof.
  assert (Hwf : wf_state separate_registry).
  { apply map_Forall_insert_2; [reflexivity|].
    apply map_Forall_insert_2; [reflexivity|]. apply map_Forall_empty. }
  split; [reflexivity|]. split; [exact Hwf|].
  destruct (addBindKeyTo_without_entry_changes_nothing separate_registry "C"
              (VStr "X") eq_refl Hwf eq_refl) as (s' & Hrun & _ & Hseen).
  exists s'. split; [exact Hrun|]. rewrite (Hseen "C"), (Hseen "A"). by split.
Defined.

(** ** Replacing a binding *)

(** X10: [setBindingTo] on a key other than ["__proto__"] stores whatever it
    is given.  Afterwards the key is bound exactly when the stored value is
    truthy, and [getActionsForKey] returns the value itself if it is truthy
    and [null] otherwise: setting a key to [null], [undefined], [""], [0]
    or [false] unbinds it. *)
Theorem setBindingTo_then_queries s k v :
  k ≠ "__proto__" →
  ∃ s', setBindingTo k v s = Ok () s'
        ∧ getActionsForKey k s' = Ok (if truthy v then v else VNull) s'
        ∧ isBound k s' = Ok (truthy v) s'.
Proof.
  intros _. eexists. split; [apply setBindingTo_eq|].
  rewrite getActionsForKey_eq, isBound_eq. cbn [bindings].
  by rewrite lookup_insert_eq.
Qed.

Lemma setBindingTo_then_queries_witness :
  "A" ≠ "__proto__"
  ∧ ∃ s', setBindingTo "A" VNull separate_registry = Ok () s'
          ∧ getActionsForKey "A" s' = Ok VNull s'
          ∧ isBound "A" s' = Ok false s'.
Proof.
  assert (Hkey : "A" ≠ "__proto__") by done.
  split; [exact Hkey|].
  exact (setBindingTo_then_queries separate_registry "A" VNull Hkey).
Defined.

(** X11: Of two [setBindingTo] calls on one key other than ["__proto__"]
    only the second counts. *)
Theorem setBindingTo_last_wins s k v1 v2 :
  k ≠ "__proto__" →
  (setBindingTo k v1 ;;; setBindingTo k v2) s = setBindingTo k v2 s.
Proof.
  intros _. unfold bind. rewrite !setBindingTo_eq. cbn [bindings arrays].
  by rewrite insert_insert_eq.
Qed.

Lemma setBindingTo_last_wins_witness :
  "A" ≠ "__proto__"
  ∧ (setBindingTo "A" (VArr 2%positive) ;;; setBindingTo "A" (VStr "Jump"))
      separate_registry
    = setBindingTo "A" (VStr "Jump") separate_registry.
Proof.
  assert (Hkey : "A" ≠ "__proto__") by done.
  split; [exact Hkey|].
  exact (setBindingTo_last_wins separate_registry "A" (VArr 2%positive)
           (VStr "Jump") Hkey).
Defined.

(** X12: [setBindingTo] calls on distinct keys can be made in either order. *)
Theorem setBindingTo_commutes s k k' v v' :
  k ≠ k' →
  (setBindingTo k v ;;; setBindingTo k' v') s
  = (setBindingTo k' v' ;;; setBindingTo k v) s.
Proof.
  intros Hne. unfold bind. rewrite !setBindingTo_eq. cbn [bindings arrays].
  f_equal. f_equal. by apply insert_insert_ne.
Qed.

Lemma setBindingTo_commutes_witness :
  "A" ≠ "B"
  ∧ (setBindingTo "A" (VArr 2%positive) ;;; setBindingTo "B" VNull)
      separate_registry
    = (setBindingTo "B" VNull ;;; setBindingTo "A" (VArr 2%positive))
        separate_registry.
Proof.
  assert (Hne : "A" ≠ "B") by discriminate.
  split; [exact Hne|].
  exact (setBindingTo_commutes separate_registry "A" "B" (VArr 2%positive)
           VNull Hne).
Defined.

(** ** The two queries agree *)

(** X13: [getActionsForKey] returns [null] or a truthy value, never another
    falsy one, and [isBound] answers [true] exactly when that result is
    not [null]. *)
Theorem isBound_iff_actions_not_null s k :
  ∃ r b, getActionsForKey k s = Ok r s
         ∧ isBound k s = Ok b s
         ∧ (r = VNull ∨ truthy r = true)
         ∧ (b = true ↔ r ≠ VNull).
Proof.
  eexists _, _. split; [apply getActionsForKey_eq|].
  split; [apply isBound_eq|]. cbv zeta.
  destruct (truthy (default VUndefined (bindings s !! k))) eqn:Ht.
  - split; [by right|]. split; [|done]. intros _ Hnull.
    by rewrite Hnull in Ht.
  - split; [by left|]. split; [discriminate|]. by intros [].
Qed.

(** ** The documented shape of the table *)

(** X14: While every entry is an array, [addBindKeyTo] on a key that names
    nothing inherited cannot throw; it keeps that shape, and so does
    [setBindingTo] on such a key when it is given an array. *)
Theorem well_shaped_preserved s k :
  inherited k = false →
  well_shaped s →
  (∀ a, ∃ s', addBindKeyTo k a s = Ok () s' ∧ well_shaped s')
  ∧ (∀ l, ∃ s', setBindingTo k (VArr l) s = Ok () s' ∧ well_shaped s').
Proof.
  intros _ Hshape. split.
  - intros a.
    assert (Hkeep : well_shaped (final (addBindKeyTo k a s))).
    { unfold well_shaped. by rewrite addBindKeyTo_bindings. }
    revert Hkeep. addBindKeyTo_by_cases s k.
    + intros Hkeep. by eexists.
    + intros Hkeep. by eexists.
    + specialize (Hshape k v Hentry). cbn in Hshape. congruence.
  - intros l. eexists. split; [apply setBindingTo_eq|].
    unfold well_shaped. cbn [bindings]. by apply map_Forall_insert_2.
Qed.

Lemma well_shaped_preserved_witness :
  inherited "A" = false
  ∧ inherited "C" = false
  ∧ well_shaped separate_registry
  ∧ (∃ s', addBindKeyTo "A" (VStr "X") separate_registry = Ok () s'
           ∧ well_shaped s')
  ∧ (∃ s', setBindingTo "C" (VArr 2%positive) separate_registry = Ok () s'
           ∧ well_shaped s').
Proof.
  assert (Hshape : well_shaped separate_registry).
  { apply map_Forall_insert_2; [reflexivity|].
    apply map_Forall_insert_2; [reflexivity|]. apply map_Forall_empty. }
  split; [reflexivity|]. split; [reflexivity|]. split; [exact Hshape|]. split.
  - exact (proj1 (well_shaped_preserved separate_registry "A" eq_refl Hshape)
             (VStr "X")).
  - exact (proj2 (well_shaped_preserved separate_registry "C" eq_refl Hshape)
             2%positive).
Defined.

(** ** Appending under two keys *)

(** X15: Appends under two keys that hold different arrays can be made in
    either order: the final state is the same. *)
Theorem addBindKeyTo_commutes s k k' l l' x y :
  bindings s !! k = Some (VArr l) → bindings s !! k' = Some (VArr l') →
  l ≠ l' → isArray x = false → isArray y = false →
  (addBindKeyTo k x ;;; addBindKeyTo k' y) s
  = (addBindKeyTo k' y ;;; addBindKeyTo k x) s.
Proof.
  intros Hk Hk' Hne Hx Hy. unfold bind.
  rewrite (addBindKeyTo_array s k l), (addBindKeyTo_array s k' l') by done.
  rewrite (addBindKeyTo_array _ k' l'), (addBindKeyTo_array _ k l) by done.
  cbn [bindings arrays]. f_equal. f_equal.
  rewrite (contents_insert_ne _ l l'), (contents_insert_ne _ l' l) by done.
  replace (pushed (<[l:=contents (arrays s) l ++ pushed (arrays s) x]> (arrays s)) y)
    with (pushed (arrays s) y) by (by destruct y).
  replace (pushed (<[l':=contents (arrays s) l' ++ pushed (arrays s) y]> (arrays s)) x)
    with (pushed (arrays s) x) by (by destruct x).
  by apply insert_insert_ne.
Qed.

Lemma addBindKeyTo_commutes_witness :
  (addBindKeyTo "A" (VStr "X") ;;; addBindKeyTo "B" (VStr "Y")) separate_registry
  = (addBindKeyTo "B" (VStr "Y") ;;; addBindKeyTo "A" (VStr "X")) separate_registry.
Proof.
  apply (addBindKeyTo_commutes separate_registry "A" "B" 1%positive 2%positive);
    [reflexivity | reflexivity | discriminate | reflexivity | reflexivity].
Defined.
